(** * sunflower_bot: a shallow embedding of [sunflower_bot.py]

    The module is sequential glue: fetch farm data, classify tree
    coordinates, evaluate the purchase rule and click through a browser
    session.  The embedding follows the Python text function by function:

    - JSON-like run-time values are the inductive [pyval]; a [dict] with
      string keys is a [gmap string pyval];
    - a Python [float] is an IEEE-754 binary64, here [spec_float] with
      [prec = 53] and [emax = 1024];
    - an exception is the [Raise] branch of [result];
    - the calls issued at the browser-automation boundary are recorded, in
      order, in a log of [event]s threaded through the [io] monad. *)

From Stdlib Require Import ZArith String Ascii List SpecFloat.
From stdpp Require Import base option list strings gmap fin_maps.

Local Open Scope string_scope.
Local Open Scope Z_scope.

(** ** Exceptions and results *)

(** [TypeError] stands for the two exceptions Python raises when a value's
    type does not support an operation ([TypeError] and [AttributeError]). *)
Inductive exn : Type :=
  | TypeError
  | KeyError
  | ValueError
  | OverflowError
  | HTTPError.

Inductive result (A : Type) : Type :=
  | Ok (a : A)
  | Raise (e : exn).
Arguments Ok {A} a.
Arguments Raise {A} e.

#[export] Instance result_ret : MRet result := @Ok.
#[export] Instance result_bind : MBind result := fun A B f r =>
  match r with
  | Ok a => f a
  | Raise e => Raise e
  end.

#[export] Instance result_fmap : FMap result := fun A B f r =>
  match r with
  | Ok a => Ok (f a)
  | Raise e => Raise e
  end.

Definition returns {A} (r : result A) : Prop := exists a, r = Ok a.

(** ** Values *)

(** [Coordinate = Tuple[float, float]] *)
Definition float : Type := spec_float.
Definition Coordinate : Type := float * float.

#[warnings="-register-all"]
Inductive pyval : Type :=
  | VNone
  | VBool (b : bool)
  | VInt (z : Z)
  | VFloat (f : float)
  | VStr (s : string)
  | VList (l : list pyval)
  | VDict (d : gmap string pyval).

(** [@dataclass class ResourceGroup] *)
Record ResourceGroup : Type := Build_ResourceGroup {
  resource_type : string;
  coordinates : list Coordinate;
}.

(** ** Built-in operations used by the module *)

(** [isinstance(v, Mapping)] *)
Definition isinstance_Mapping (v : pyval) : bool :=
  match v with
  | VDict _ => true
  | _ => false
  end.

Definition is_str (key : string) (v : pyval) : bool :=
  match v with
  | VStr s => bool_decide (s = key)
  | _ => false
  end.

(** [key in container] for a string [key]: key membership on a dict,
    element membership on a list, substring test on a str. *)
Definition py_contains (key : string) (container : pyval) : result bool :=
  match container with
  | VDict d => Ok (bool_decide (is_Some (d !! key)))
  | VList l => Ok (existsb (is_str key) l)
  | VStr s => Ok (if String.index 0 key s is Some _ then true else false)
  | _ => Raise TypeError
  end.

(** [container[key]] for a string [key] *)
Definition py_getitem (container : pyval) (key : string) : result pyval :=
  match container with
  | VDict d => if d !! key is Some v then Ok v else Raise KeyError
  | _ => Raise TypeError
  end.

(** [container.get(key, dflt)]: only a dict has the method. *)
Definition py_get (container : pyval) (key : string) (dflt : pyval) : result pyval :=
  match container with
  | VDict d => Ok (default dflt (d !! key))
  | _ => Raise TypeError
  end.

(** [for item in v]: the items visited.  A dict yields its keys (here in
    the map's own order, insertion order not being kept) and a str its
    characters (here byte by byte); the module's loop body raises the same
    exception on every str, so neither convention shows in a result. *)
Definition py_iter (v : pyval) : result (list pyval) :=
  match v with
  | VList l => Ok l
  | VDict d => Ok ((fun kv => VStr kv.1) <$> map_to_list d)
  | VStr s => Ok ((fun a => VStr (String a EmptyString)) <$> list_ascii_of_string s)
  | _ => Raise TypeError
  end.

(** [float(z)] for an int: rounded to nearest, ties to even; an int whose
    rounding overflows binary64 raises [OverflowError]. *)
Definition int_to_float (z : Z) : result float :=
  match binary_normalize 53 1024 z 0 false with
  | S754_infinity _ => Raise OverflowError
  | f => Ok f
  end.

(** [v > k] for an int literal [k].  A float is compared with the int by
    value, without rounding the int. *)
Definition float_gt_int (f : float) (k : Z) : bool :=
  match f with
  | S754_nan => false
  | S754_infinity s => negb s
  | S754_zero _ => k <? 0
  | S754_finite s m e =>
      let n := if s then Z.neg m else Z.pos m in
      if 0 <=? e then k <? n * 2 ^ e else k * 2 ^ (- e) <? n
  end.

Definition py_gt_int (v : pyval) (k : Z) : result bool :=
  match v with
  | VInt z => Ok (k <? z)
  | VBool b => Ok (k <? Z.b2z b)
  | VFloat f => Ok (float_gt_int f k)
  | _ => Raise TypeError
  end.

(** [for x in l: s = body(s, x)], stopping at the first exception. *)
Fixpoint for_in {S A} (body : S -> A -> result S) (s : S) (l : list A) : result S :=
  match l with
  | [] => Ok s
  | x :: l' => s' ← body s x; for_in body s' l'
  end.

Section Bot.

(** The str-to-float parser behind [float(s)]: [None] when the text is not
    a float literal ([ValueError]). *)
Variable str_to_float : string -> option float.

(** [float(v)] *)
Definition py_float (v : pyval) : result float :=
  match v with
  | VFloat f => Ok f
  | VInt z => int_to_float z
  | VBool b => int_to_float (Z.b2z b)
  | VStr s => if str_to_float s is Some f then Ok f else Raise ValueError
  | _ => Raise TypeError
  end.

(** ** The module's functions *)

Definition _extract_coordinate (tree_like : pyval) : result Coordinate :=
  has_key ← py_contains "coordinates" tree_like;
  nested ← (if has_key : bool
            then isinstance_Mapping <$> py_getitem tree_like "coordinates"
            else Ok false);
  if nested : bool then
    data ← py_getitem tree_like "coordinates";
    x ← py_get data "x" (VInt 0) ≫= py_float;
    y ← py_get data "y" (VInt 0) ≫= py_float;
    Ok (x, y)
  else
    x ← py_get tree_like "x" (VInt 0) ≫= py_float;
    y ← py_get tree_like "y" (VInt 0) ≫= py_float;
    Ok (x, y).

(** The update made by the loop of [parse_resource_groups]:
    [grouped.setdefault("trees", ResourceGroup("trees", [])).coordinates.append(coords)] *)
Definition append_tree (grouped : gmap string ResourceGroup) (coords : Coordinate)
  : gmap string ResourceGroup :=
  let group := default (Build_ResourceGroup "trees" []) (grouped !! "trees") in
  <["trees" := Build_ResourceGroup (resource_type group) (coordinates group ++ [coords])%list]> grouped.

(** One turn of the loop of [parse_resource_groups]. *)
Definition classify_tree (grouped : gmap string ResourceGroup) (tree : pyval)
  : result (gmap string ResourceGroup) :=
  coords ← _extract_coordinate tree;
  Ok (append_tree grouped coords).

Definition parse_resource_groups (farm_data : pyval) : result (gmap string ResourceGroup) :=
  trees ← (if isinstance_Mapping farm_data
           then py_get farm_data "trees" (VList [])
           else Ok (VList []));
  items ← py_iter trees;
  for_in classify_tree ∅ items.

Definition should_purchase_axes (inventory : gmap string pyval) : result bool :=
  let axes := default (VInt 0) (inventory !! "axes") in
  let gold := default (VInt 0) (inventory !! "gold") in
  many_axes ← py_gt_int axes 10;
  if many_axes : bool then Ok true else py_gt_int gold 500.

(** ** The browser-automation boundary *)

Inductive event : Type :=
  | SyncPlaywrightEnter
  | LaunchPersistentContext (user_data_dir : string) (headless : bool) (width height : Z)
  | NewPage
  | Goto (url : string) (wait_until : string)
  | MouseClick (x y : float)
  | ContextClose
  | SyncPlaywrightExit.

(** A computation over the log of browser calls issued so far.  The calls
    themselves are taken to return normally; an exception stops the
    computation and keeps the log. *)
Definition io (A : Type) : Type := list event -> list event * result A.

Definition io_ret {A} (a : A) : io A := fun log => (log, Ok a).
Definition io_bind {A B} (m : io A) (f : A -> io B) : io B := fun log =>
  match m log with
  | (log', Ok a) => f a log'
  | (log', Raise e) => (log', Raise e)
  end.
Definition emit (e : event) : io unit := fun log => ((log ++ [e])%list, Ok tt).
Definition lift {A} (r : result A) : io A := fun log => (log, r).

#[export] Instance io_mret : MRet io := @io_ret.
#[export] Instance io_mbind : MBind io := fun A B f m => io_bind m f.

Fixpoint io_for {A} (l : list A) (body : A -> io unit) : io unit :=
  match l with
  | [] => mret tt
  | x :: l' => body x;; io_for l' body
  end.

(** Handles of the automation library: they carry no data of their own. *)
Inductive Playwright : Type := playwright_handle.
Inductive BrowserContext : Type := context_handle.
Inductive Page : Type := page_handle.

(** The remote service: the outcome of the GET on a URL with an API key. *)
Variable http_get_json : string -> string -> result pyval.

Definition fetch_farm_data (farm_id api_key : string) : result pyval :=
  let url := "https://api.sunflower-land.com/community/farms/" +:+ farm_id in
  http_get_json url api_key.

Definition create_browser_context (playwright : Playwright) (profile_dir : string)
  : io BrowserContext :=
  emit (LaunchPersistentContext profile_dir false 1280 720);;
  mret context_handle.

Definition go_to_game (context : BrowserContext) : io Page :=
  emit NewPage;;
  emit (Goto "https://sunflower-land.com/play/" "domcontentloaded");;
  mret page_handle.

Definition click_store_for_axes (page : Page) (store_coordinate : Coordinate) : io unit :=
  let '(x, y) := store_coordinate in
  emit (MouseClick x y).

Definition chop_trees (page : Page) (tree_coordinates : list Coordinate) : io unit :=
  io_for tree_coordinates (fun '(x, y) =>
    io_for (seq 0 3) (fun _ => emit (MouseClick x y))).

(** [resources.get("trees", ResourceGroup("trees", [])).coordinates] *)
Definition tree_coordinates_of (resources : gmap string ResourceGroup) : list Coordinate :=
  coordinates (default (Build_ResourceGroup "trees" []) (resources !! "trees")).

Definition run_bot (farm_id api_key profile_dir : string)
    (store_coordinate : Coordinate) (inventory : gmap string pyval) : io unit :=
  farm_data ← lift (fetch_farm_data farm_id api_key);
  resources ← lift (parse_resource_groups farm_data);
  purchase ← lift (should_purchase_axes inventory);
  if negb purchase then mret tt else
  let tree_coordinates := tree_coordinates_of resources in
  if tree_coordinates is [] then mret tt else
  emit SyncPlaywrightEnter;;
  context ← create_browser_context playwright_handle profile_dir;
  page ← go_to_game context;
  click_store_for_axes page store_coordinate;;
  chop_trees page tree_coordinates;;
  emit ContextClose;;
  emit SyncPlaywrightExit.

(** ** Vocabulary of the statements *)

(** [count_at inventory item n]: the inventory holds the count [n] for the
    item, a missing item counting as 0. *)
Definition count_at (inventory : gmap string pyval) (item : string) (n : Z) : Prop :=
  inventory !! item = Some (VInt n) \/ (inventory !! item = None /\ n = 0).

(** The floats 0.0, 3.0 = 3 * 2^51 * 2^-51 and 4.0 = 2^52 * 2^-50. *)
Definition float_0 : float := S754_zero false.
Definition float_3 : float := S754_finite false 6755399441055744 (-51).
Definition float_4 : float := S754_finite false 4503599627370496 (-50).

(** Reading ["x"] and ["y"] off one mapping, each defaulting to 0. *)
Definition read_xy (d : gmap string pyval) : result Coordinate :=
  x ← py_float (default (VInt 0) (d !! "x"));
  y ← py_float (default (VInt 0) (d !! "y"));
  Ok (x, y).

(** The mapping an entry's coordinate is read from: the nested
    ["coordinates"] mapping when there is one, else the entry itself. *)
Definition coordinate_source (d : gmap string pyval) : gmap string pyval :=
  match d !! "coordinates" with
  | Some (VDict m) => m
  | _ => d
  end.

(** The classification of a list of extracted coordinates: no key when
    there is none, else the one group "trees" holding them in order. *)
Definition grouped_trees (coords : list Coordinate) : gmap string ResourceGroup :=
  match coords with
  | [] => ∅
  | _ => {[ "trees" := Build_ResourceGroup "trees" coords ]}
  end.

(** A tree entry the classifier accepts: a mapping whose "x" and "y", read
    from its coordinate source and defaulting to 0, are values [float]
    converts. *)
Definition accepted_entry (entry : pyval) : Prop :=
  exists d, entry = VDict d /\
    returns (py_float (default (VInt 0) (coordinate_source d !! "x"))) /\
    returns (py_float (default (VInt 0) (coordinate_source d !! "y"))).

(** A value under "trees" the classifier accepts: a list of accepted
    entries, or an empty mapping or empty string (nothing to iterate). *)
Definition accepted_trees (trees : pyval) : Prop :=
  match trees with
  | VList entries => Forall accepted_entry entries
  | VDict m => m = ∅
  | VStr s => s = ""
  | _ => False
  end.

Definition accepted_farm_data (farm_data : pyval) : Prop :=
  match farm_data with
  | VDict d =>
      match d !! "trees" with
      | Some trees => accepted_trees trees
      | None => True
      end
  | _ => True
  end.

(** The clicks of a harvest: three at each coordinate, coordinate by
    coordinate. *)
Definition harvest_clicks (tree_coordinates : list Coordinate) : list event :=
  flat_map (fun c => [MouseClick c.1 c.2; MouseClick c.1 c.2; MouseClick c.1 c.2])
           tree_coordinates.

Definition is_click (e : event) : bool :=
  match e with
  | MouseClick _ _ => true
  | _ => false
  end.

(** The click sequence of a log. *)
Definition mouse_clicks (log : list event) : list event := List.filter is_click log.

(** The browser log of a complete session: start, launch on the profile,
    page and navigation, the store click, the harvest, then the close. *)
Definition session_log (profile_dir : string) (store_coordinate : Coordinate)
    (tree_coordinates : list Coordinate) : list event :=
  ([SyncPlaywrightEnter;
    LaunchPersistentContext profile_dir false 1280 720;
    NewPage;
    Goto "https://sunflower-land.com/play/" "domcontentloaded";
    MouseClick store_coordinate.1 store_coordinate.2]
   ++ harvest_clicks tree_coordinates
   ++ [ContextClose; SyncPlaywrightExit])%list.

(** [float_is_int f z]: the float [f] has exactly the value of the int [z]
    (sign, and mantissa [|z| * 2^-e] for the exponent [e <= 0]). *)
Definition float_is_int (f : float) (z : Z) : Prop :=
  match f with
  | S754_zero s => s = false /\ z = 0
  | S754_finite s m e => s = (z <? 0) /\ e <= 0 /\ Z.pos m = Z.abs z * 2 ^ (- e)
  | _ => False
  end.

(** The values [float] converts, spelled out: any float or bool, an int
    below 2^1024 - 2^970 in magnitude, a str the parser accepts. *)
Definition convertible (v : pyval) : Prop :=
  match v with
  | VFloat _ | VBool _ => True
  | VInt z => Z.abs z < 2 ^ 1024 - 2 ^ 970
  | VStr s => is_Some (str_to_float s)
  | _ => False
  end.

(** A float that is neither infinite nor NaN. *)
Definition float_finite (f : float) : Prop :=
  match f with
  | S754_zero _ | S754_finite _ _ _ => True
  | _ => False
  end.

(** The values [>] compares with an int: int, bool and float. *)
Definition is_number (v : pyval) : bool :=
  match v with
  | VInt _ | VBool _ | VFloat _ => true
  | _ => false
  end.

(** The exceptions coordinate extraction and classification can raise. *)
Definition conversion_error (e : exn) : Prop :=
  e = TypeError \/ e = ValueError \/ e = OverflowError.

(** Data of the worked examples: a parser that accepts no text, and a
    service that answers every request with a farm of two trees, one in each
    coordinate schema. *)
Definition no_literal : string -> option float := fun _ => None.

Definition two_trees : pyval :=
  VDict {[ "trees" := VList
    [ VDict {[ "x" := VInt 3; "y" := VInt 4 ]};
      VDict {[ "coordinates" := VDict {[ "x" := VInt 3; "y" := VInt 4 ]} ]} ] ]}.

Definition two_trees_service : string -> string -> result pyval :=
  fun _ _ => Ok two_trees.


Definition failing_service : string -> string -> result pyval :=
  fun _ _ => Raise HTTPError.

(** ** Properties *)

Lemma returns_Ok {A} (a : A) : returns (Ok a).
Proof. exists a. reflexivity. Qed.

Lemma returns_Raise {A} (e : exn) : ~ returns (@Raise A e).
Proof. intros [a Ha]. discriminate. Qed.

Lemma extract_coordinate_dict (d : gmap string pyval) :
  _extract_coordinate (VDict d) = read_xy (coordinate_source d).
Proof.
  unfold _extract_coordinate, coordinate_source, read_xy; simpl.
  destruct (d !! "coordinates") as [v|] eqn:Hc; simpl.
  - destruct v; reflexivity.
  - reflexivity.
Qed.

Lemma extract_coordinate_not_dict (v : pyval) :
  isinstance_Mapping v = false -> _extract_coordinate v = Raise TypeError.
Proof.
  unfold _extract_coordinate.
  destruct v as [| | | |s|l|]; simpl; try reflexivity; try discriminate; intros _.
  - destruct (String.index 0 "coordinates" s); reflexivity.
  - destruct (existsb (is_str "coordinates") l); reflexivity.
Qed.

(** *** Conversion to float *)

Lemma digits2_pos_shift (m k : positive) :
  digits2_pos (Pos.iter xO m k) = (digits2_pos m + k)%positive.
Proof.
  induction k as [|k IH] using Pos.peano_ind.
  - simpl. lia.
  - rewrite Pos.iter_succ. simpl. rewrite IH. lia.
Qed.

Lemma shift_value (m k : positive) :
  Z.pos (Pos.iter xO m k) = Z.pos m * 2 ^ Z.pos k.
Proof.
  induction k as [|k IH] using Pos.peano_ind.
  - simpl. rewrite Z.pow_1_r. lia.
  - rewrite Pos.iter_succ, Pos2Z.inj_succ, Z.pow_succ_r by lia.
    rewrite Pos2Z.inj_xO, IH. lia.
Qed.

Lemma digits2_pos_lower (m : positive) :
  2 ^ (Z.pos (digits2_pos m) - 1) <= Z.pos m.
Proof.
  induction m as [m IH|m IH|]; simpl digits2_pos.
  - replace (Z.pos (Pos.succ (digits2_pos m)) - 1)
      with (Z.succ (Z.pos (digits2_pos m) - 1)) by lia.
    rewrite Z.pow_succ_r by lia. lia.
  - replace (Z.pos (Pos.succ (digits2_pos m)) - 1)
      with (Z.succ (Z.pos (digits2_pos m) - 1)) by lia.
    rewrite Z.pow_succ_r by lia. lia.
  - reflexivity.
Qed.

Lemma digits2_pos_le_53 (m : positive) :
  Z.pos m < 2 ^ 53 -> Z.pos (digits2_pos m) <= 53.
Proof.
  intros Hm.
  destruct (Z.le_gt_cases (Z.pos (digits2_pos m)) 53) as [H|H]; [assumption|].
  pose proof (digits2_pos_lower m) as Hl.
  assert (2 ^ 53 <= 2 ^ (Z.pos (digits2_pos m) - 1)) by (apply Z.pow_le_mono_r; lia).
  lia.
Qed.

(** A 53-bit mantissa with an exponent in range is kept as it is. *)
Lemma binary_round_aux_exact (s : bool) (m : positive) (e : Z) :
  Z.pos (digits2_pos m) = 53 -> -1074 <= e <= 971 ->
  binary_round_aux 53 1024 s (Z.pos m) e loc_Exact = S754_finite s m e.
Proof.
  intros Hd He.
  assert (shr_fexp 53 1024 (Z.pos m) e loc_Exact
          = ({| shr_m := Z.pos m; shr_r := false; shr_s := false |}, e)) as Hshr.
  { unfold shr_fexp, fexp, emin, Zdigits2. rewrite Hd.
    replace (Z.max (53 + e - 53) (3 - 1024 - 53) - e) with 0 by lia. reflexivity. }
  unfold binary_round_aux. rewrite Hshr.
  cbn [shr_m loc_of_shr_record round_nearest_even].
  rewrite Hshr. cbn [shr_m].
  destruct (Z.leb_spec e (1024 - 53)); [reflexivity|lia].
Qed.

Lemma binary_round_small (s : bool) (m : positive) :
  Z.pos m < 2 ^ 53 ->
  exists (m' : positive) (e' : Z),
    binary_round 53 1024 s m 0 = S754_finite s m' e' /\
    e' <= 0 /\ Z.pos m' = Z.pos m * 2 ^ (- e').
Proof.
  intros Hm. pose proof (digits2_pos_le_53 m Hm) as Hd.
  unfold binary_round, shl_align, fexp, emin.
  replace (Z.max (Z.pos (digits2_pos m) + 0 - 53) (3 - 1024 - 53))
    with (Z.pos (digits2_pos m) - 53) by lia.
  destruct (Z.pos (digits2_pos m) - 53 - 0) as [|k|k] eqn:Hk; try lia.
  - exists m, 0. split; [apply binary_round_aux_exact; lia|].
    split; [lia|]. simpl. lia.
  - exists (Pos.iter xO m k), (Z.pos (digits2_pos m) - 53).
    split; [|split; [lia|]].
    + apply binary_round_aux_exact; [rewrite digits2_pos_shift|]; lia.
    + rewrite shift_value. f_equal. f_equal. lia.
Qed.

(** An int of at most 53 bits converts, and to a float of the same value:
    the mantissa is the int's magnitude shifted left by the opposite of the
    exponent. *)
Lemma int_to_float_small (z : Z) :
  Z.abs z < 2 ^ 53 ->
  int_to_float z = Ok (S754_zero false) /\ z = 0 \/
  exists (m : positive) (e : Z),
    int_to_float z = Ok (S754_finite (z <? 0) m e) /\
    e <= 0 /\ Z.pos m = Z.abs z * 2 ^ (- e).
Proof.
  intros Hz. unfold int_to_float, binary_normalize.
  destruct z as [|p|p].
  - left. split; reflexivity.
  - right. destruct (binary_round_small false p) as (m & e & -> & He & Hm); [lia|].
    exists m, e. repeat split; assumption.
  - right. destruct (binary_round_small true p) as (m & e & -> & He & Hm); [lia|].
    exists m, e. repeat split; assumption.
Qed.

(** What [float] converts: every float and bool, an int whose rounding does
    not overflow, a str the parser accepts; nothing else. *)
Lemma py_float_returns (v : pyval) :
  returns (py_float v) <->
  match v with
  | VFloat _ | VBool _ => True
  | VInt z => returns (int_to_float z)
  | VStr s => is_Some (str_to_float s)
  | _ => False
  end.
Proof.
  destruct v as [|b|z|f|s|l|d]; simpl;
    try (split; [intros H; destruct (returns_Raise _ H)|intros []]);
    try (split; [constructor|intros _; apply returns_Ok]).
  - split; [constructor|intros _]. destruct b; apply returns_Ok.
  - reflexivity.
  - destruct (str_to_float s) as [f|].
    + split; [eauto|intros _; apply returns_Ok].
    + split; [intros H; destruct (returns_Raise _ H)|intros [f Hf]; discriminate].
Qed.

(** *** Purchase policy *)

Lemma count_at_lookup (inventory : gmap string pyval) (item : string) (n : Z) :
  count_at inventory item n -> default (VInt 0) (inventory !! item) = VInt n.
Proof. intros [->|[-> ->]]; reflexivity. Qed.

(** C1. On an inventory holding the counts [axes] and [gold] at the keys
    "axes" and "gold" (a missing key counting as 0), [should_purchase_axes]
    returns a boolean that is true exactly when [axes] is more than 10 or
    [gold] is more than 500.  The four inventories of the specification give
    true, true, false, false. *)
Theorem should_purchase_axes_iff :
  (forall (inventory : gmap string pyval) (axes gold : Z),
     count_at inventory "axes" axes ->
     count_at inventory "gold" gold ->
     exists b : bool,
       should_purchase_axes inventory = Ok b /\
       (b = true <-> 10 < axes \/ 500 < gold)) /\
  should_purchase_axes {[ "axes" := VInt 11; "gold" := VInt 0 ]} = Ok true /\
  should_purchase_axes {[ "axes" := VInt 0; "gold" := VInt 501 ]} = Ok true /\
  should_purchase_axes {[ "axes" := VInt 5; "gold" := VInt 100 ]} = Ok false /\
  should_purchase_axes ∅ = Ok false.
Proof.
  split; [|repeat split; reflexivity].
  intros inventory axes gold Ha Hg. unfold should_purchase_axes.
  rewrite (count_at_lookup _ _ _ Ha), (count_at_lookup _ _ _ Hg). simpl.
  destruct (Z.ltb_spec 10 axes) as [Ha'|Ha']; simpl.
  - exists true. split; [reflexivity|]. split; [left; assumption|reflexivity].
  - destruct (Z.ltb_spec 500 gold) as [Hg'|Hg'].
    + exists true. split; [reflexivity|]. split; [right; assumption|reflexivity].
    + exists false. split; [reflexivity|]. split; [discriminate|lia].
Qed.

(** *** Coordinate extraction *)

(** C5. The flat entry [{"x": x, "y": y}] and the nested entry
    [{"coordinates": {"x": x, "y": y}}] extract to the same result, whatever
    the two values are; for 3 and 4 both give (3.0, 4.0). *)
Theorem extract_coordinate_flat_nested :
  (forall x y : pyval,
     _extract_coordinate (VDict {[ "x" := x; "y" := y ]}) =
     _extract_coordinate (VDict {[ "coordinates" := VDict {[ "x" := x; "y" := y ]} ]})) /\
  _extract_coordinate (VDict {[ "x" := VInt 3; "y" := VInt 4 ]}) = Ok (float_3, float_4) /\
  _extract_coordinate (VDict {[ "coordinates" := VDict {[ "x" := VInt 3; "y" := VInt 4 ]} ]})
    = Ok (float_3, float_4).
Proof.
  split; [|split; reflexivity].
  intros x y. rewrite !extract_coordinate_dict. reflexivity.
Qed.

(** C6. An entry with no nested "coordinates" mapping reads its own "x" and
    "y": with both missing the coordinate is (0.0, 0.0), and with one
    missing that axis is 0.0 next to the converted other axis. *)
Theorem extract_coordinate_default (d : gmap string pyval) :
  (forall m, d !! "coordinates" <> Some (VDict m)) ->
  (d !! "x" = None -> d !! "y" = None ->
     _extract_coordinate (VDict d) = Ok (float_0, float_0)) /\
  (d !! "x" = None ->
     forall v fy, d !! "y" = Some v -> py_float v = Ok fy ->
     _extract_coordinate (VDict d) = Ok (float_0, fy)) /\
  (d !! "y" = None ->
     forall v fx, d !! "x" = Some v -> py_float v = Ok fx ->
     _extract_coordinate (VDict d) = Ok (fx, float_0)).
Proof.
  intros Hno. rewrite extract_coordinate_dict.
  assert (coordinate_source d = d) as ->.
  { unfold coordinate_source.
    destruct (d !! "coordinates") as [[]|] eqn:Hc; try reflexivity.
    exfalso. eapply Hno. reflexivity. }
  unfold read_xy. repeat split.
  - intros -> ->. reflexivity.
  - intros -> v fy -> Hv. simpl. rewrite Hv. reflexivity.
  - intros -> v fx -> Hv. simpl. rewrite Hv. reflexivity.
Qed.

(** C10. When "coordinates" is present but is not a mapping, the entry's
    own "x" and "y" are read, each defaulting to 0: the value under
    "coordinates" plays no part in the result. *)
Theorem extract_coordinate_ignores_non_mapping (d : gmap string pyval) (v : pyval) :
  d !! "coordinates" = Some v ->
  isinstance_Mapping v = false ->
  _extract_coordinate (VDict d) = read_xy d /\
  _extract_coordinate (VDict d) = _extract_coordinate (VDict (delete "coordinates" d)).
Proof.
  intros Hc Hv.
  assert (coordinate_source d = d) as Hsrc.
  { unfold coordinate_source. rewrite Hc. destruct v; try reflexivity. discriminate. }
  rewrite !extract_coordinate_dict, Hsrc. split; [reflexivity|].
  unfold coordinate_source. rewrite lookup_delete_eq.
  unfold read_xy. rewrite !lookup_delete_ne by discriminate. reflexivity.
Qed.

(** *** Resource classification *)

Lemma parse_not_mapping (farm_data : pyval) :
  isinstance_Mapping farm_data = false -> parse_resource_groups farm_data = Ok ∅.
Proof. unfold parse_resource_groups. intros ->. reflexivity. Qed.

Lemma parse_mapping (d : gmap string pyval) :
  parse_resource_groups (VDict d) =
  py_iter (default (VList []) (d !! "trees")) ≫= for_in classify_tree ∅.
Proof. reflexivity. Qed.

Lemma classify_tree_Ok grouped (entry : pyval) (c : Coordinate) :
  _extract_coordinate entry = Ok c ->
  classify_tree grouped entry = Ok (append_tree grouped c).
Proof. unfold classify_tree. intros ->. reflexivity. Qed.

Lemma classify_tree_Raise grouped (entry : pyval) (e : exn) :
  _extract_coordinate entry = Raise e ->
  classify_tree grouped entry = Raise e.
Proof. unfold classify_tree. intros ->. reflexivity. Qed.

Lemma for_in_classify (entries : list pyval) :
  forall (coords : list Coordinate) (grouped : gmap string ResourceGroup),
    Forall2 (fun entry c => _extract_coordinate entry = Ok c) entries coords ->
    for_in classify_tree grouped entries = Ok (foldl append_tree grouped coords).
Proof.
  induction entries as [|entry entries IH]; intros coords grouped Hall;
    inversion Hall as [|? c ? coords' Hc Hrest]; subst; simpl.
  - reflexivity.
  - rewrite (classify_tree_Ok _ _ _ Hc). simpl. apply IH. assumption.
Qed.

Lemma foldl_append_tree_group (coords : list Coordinate) :
  forall cs : list Coordinate,
    foldl append_tree {[ "trees" := Build_ResourceGroup "trees" cs ]} coords =
    {[ "trees" := Build_ResourceGroup "trees" (cs ++ coords) ]}.
Proof.
  induction coords as [|c coords IH]; intros cs; simpl.
  - rewrite app_nil_r. reflexivity.
  - unfold append_tree at 2. rewrite lookup_singleton_eq. simpl.
    rewrite insert_singleton_eq, IH, <- app_assoc. reflexivity.
Qed.

Lemma foldl_append_tree_empty (coords : list Coordinate) :
  foldl append_tree ∅ coords = grouped_trees coords.
Proof.
  destruct coords as [|c coords]; simpl; [reflexivity|].
  unfold append_tree at 2. rewrite lookup_empty. simpl.
  rewrite insert_empty. apply foldl_append_tree_group.
Qed.

Lemma for_in_classify_returns (entries : list pyval) :
  forall grouped : gmap string ResourceGroup,
    returns (for_in classify_tree grouped entries) <->
    Forall (fun entry => returns (_extract_coordinate entry)) entries.
Proof.
  induction entries as [|entry entries IH]; intros grouped; simpl.
  - split; [constructor|intros _; apply returns_Ok].
  - destruct (_extract_coordinate entry) as [c|e] eqn:Hc.
    + rewrite (classify_tree_Ok _ _ _ Hc). simpl. rewrite IH. split.
      * intros H. constructor; [rewrite Hc; apply returns_Ok|assumption].
      * intros H. inversion H; assumption.
    + rewrite (classify_tree_Raise _ _ _ Hc). simpl. split.
      * intros H. destruct (returns_Raise _ H).
      * intros H. inversion H as [|? ? Hr]. rewrite Hc in Hr.
        destruct (returns_Raise _ Hr).
Qed.

Lemma extract_coordinate_returns (entry : pyval) :
  returns (_extract_coordinate entry) <-> accepted_entry entry.
Proof.
  split.
  - intros Hr. destruct (isinstance_Mapping entry) eqn:Hm.
    + destruct entry; try discriminate. eexists. split; [reflexivity|].
      rewrite extract_coordinate_dict in Hr. unfold read_xy in Hr.
      destruct (py_float (default (VInt 0) (coordinate_source d !! "x"))); simpl in Hr;
        [|destruct (returns_Raise _ Hr)].
      destruct (py_float (default (VInt 0) (coordinate_source d !! "y"))); simpl in Hr;
        [|destruct (returns_Raise _ Hr)].
      split; apply returns_Ok.
    + rewrite extract_coordinate_not_dict in Hr by assumption.
      destruct (returns_Raise _ Hr).
  - intros (d & -> & [x Hx] & [y Hy]).
    rewrite extract_coordinate_dict. unfold read_xy. rewrite Hx, Hy. apply returns_Ok.
Qed.

Lemma iterate_returns (trees : pyval) :
  returns (py_iter trees ≫= for_in classify_tree ∅) <-> accepted_trees trees.
Proof.
  destruct trees as [| | | |s|entries|m]; simpl;
    try (split; [intros H; destruct (returns_Raise _ H)|intros []]).
  - destruct s as [|a s]; simpl.
    + split; [reflexivity|intros _; apply returns_Ok].
    + rewrite (classify_tree_Raise _ _ TypeError)
        by (apply extract_coordinate_not_dict; reflexivity). simpl.
      split; [intros H; destruct (returns_Raise _ H)|discriminate].
  - rewrite for_in_classify_returns.
    split; intros H; eapply Forall_impl; try exact H;
      intros entry; apply extract_coordinate_returns.
  - destruct (map_to_list m) as [|[k v] kvs] eqn:Hm; simpl.
    + apply map_to_list_empty_iff in Hm. split; [intros _; assumption|intros _; apply returns_Ok].
    + rewrite (classify_tree_Raise _ _ TypeError)
        by (apply extract_coordinate_not_dict; reflexivity). simpl.
      split; [intros H; destruct (returns_Raise _ H)|].
      intros ->. rewrite map_to_list_empty in Hm. discriminate.
Qed.

(** C7. Farm data that is not a mapping, or is a mapping without the key
    "trees", is classified as the empty mapping; nothing is raised. *)
Theorem parse_without_trees (farm_data : pyval) :
  isinstance_Mapping farm_data = false \/
    (exists d, farm_data = VDict d /\ d !! "trees" = None) ->
  parse_resource_groups farm_data = Ok ∅.
Proof.
  intros [Hm|(d & -> & Hd)].
  - apply parse_not_mapping. assumption.
  - rewrite parse_mapping, Hd. reflexivity.
Qed.

(** C8. For a mapping whose "trees" list has n entries, each yielding a
    coordinate, the classification has no key other than "trees"; when
    n >= 1 its "trees" group holds exactly those n coordinates, in the order
    of the entries, and when n = 0 it is empty. *)
Theorem parse_trees_in_order (d : gmap string pyval)
    (entries : list pyval) (coords : list Coordinate) :
  d !! "trees" = Some (VList entries) ->
  Forall2 (fun entry c => _extract_coordinate entry = Ok c) entries coords ->
  exists grouped : gmap string ResourceGroup,
    parse_resource_groups (VDict d) = Ok grouped /\
    dom grouped ⊆ {[ "trees" ]} /\
    length coords = length entries /\
    (entries <> [] -> grouped !! "trees" = Some (Build_ResourceGroup "trees" coords)) /\
    (entries = [] -> grouped = ∅).
Proof.
  intros Hd Hall. exists (grouped_trees coords).
  rewrite parse_mapping, Hd. simpl.
  rewrite (for_in_classify _ _ _ Hall), foldl_append_tree_empty.
  split; [reflexivity|]. split; [|split; [|split]].
  - destruct coords; simpl; [rewrite dom_empty_L|rewrite dom_singleton_L]; set_solver.
  - symmetry. eapply Forall2_length. exact Hall.
  - intros Hne. destruct Hall; [congruence|]. simpl. apply lookup_singleton_eq.
  - intros ->. inversion Hall. reflexivity.
Qed.

(** C4, as the code has it. Classification returns exactly on accepted farm
    data: anything that is not a mapping, a mapping without "trees", or one
    whose "trees" is a list of mappings in which the "x" and "y" read are
    missing or convertible by [float] (or is an empty mapping or string).
    Every other input makes it raise. *)
Theorem parse_returns_iff (farm_data : pyval) :
  returns (parse_resource_groups farm_data) <-> accepted_farm_data farm_data.
Proof.
  destruct (isinstance_Mapping farm_data) eqn:Hm.
  - destruct farm_data; try discriminate.
    rewrite parse_mapping. simpl.
    destruct (d !! "trees") as [trees|]; simpl.
    + apply iterate_returns.
    + split; [constructor|intros _; apply returns_Ok].
  - rewrite parse_not_mapping by assumption.
    destruct farm_data; try discriminate; simpl;
      (split; [constructor|intros _; apply returns_Ok]).
Qed.

Lemma parse_raises_on_null_axis :
  parse_resource_groups (VDict {[ "trees" := VList [VDict {[ "x" := VNone ]}] ]})
  = Raise TypeError.
Proof. reflexivity. Qed.

(** *** Session driver and orchestrator *)

Lemma chop_trees_log (page : Page) (tree_coordinates : list Coordinate) :
  forall log : list event,
    chop_trees page tree_coordinates log = (log ++ harvest_clicks tree_coordinates, Ok tt)%list.
Proof.
  unfold chop_trees.
  induction tree_coordinates as [|[x y] cs IH]; intros log; simpl.
  - rewrite app_nil_r. reflexivity.
  - unfold mbind, io_mbind, io_bind, emit; simpl.
    rewrite IH, <- !app_assoc. reflexivity.
Qed.

Lemma harvest_clicks_length (tree_coordinates : list Coordinate) :
  length (harvest_clicks tree_coordinates) = (3 * length tree_coordinates)%nat.
Proof.
  unfold harvest_clicks.
  induction tree_coordinates as [|c cs IH]; simpl; [reflexivity|].
  rewrite IH. lia.
Qed.

Lemma mouse_clicks_harvest (tree_coordinates : list Coordinate) :
  mouse_clicks (harvest_clicks tree_coordinates) = harvest_clicks tree_coordinates.
Proof.
  unfold mouse_clicks, harvest_clicks.
  induction tree_coordinates as [|c cs IH]; simpl; [reflexivity|].
  rewrite IH. reflexivity.
Qed.

Lemma mouse_clicks_app (l1 l2 : list event) :
  mouse_clicks (l1 ++ l2) = (mouse_clicks l1 ++ mouse_clicks l2)%list.
Proof. apply List.filter_app. Qed.

(** C9. [chop_trees] issues, after whatever was logged before, exactly the
    clicks of [harvest_clicks]: three consecutive clicks at each coordinate,
    coordinates in sequence order, 3 * n clicks for n coordinates (9 for
    three) and nothing else. *)
Theorem chop_trees_clicks (page : Page) (tree_coordinates : list Coordinate)
    (log : list event) :
  chop_trees page tree_coordinates log
    = ((log ++ harvest_clicks tree_coordinates)%list, Ok tt) /\
  length (harvest_clicks tree_coordinates) = (3 * length tree_coordinates)%nat /\
  forall c1 c2 c3 : Coordinate,
    harvest_clicks [c1; c2; c3] =
    [MouseClick c1.1 c1.2; MouseClick c1.1 c1.2; MouseClick c1.1 c1.2;
     MouseClick c2.1 c2.2; MouseClick c2.1 c2.2; MouseClick c2.1 c2.2;
     MouseClick c3.1 c3.2; MouseClick c3.1 c3.2; MouseClick c3.1 c3.2].
Proof.
  split; [apply chop_trees_log|]. split; [apply harvest_clicks_length|].
  reflexivity.
Qed.

Lemma run_bot_after_policy (farm_id api_key profile_dir : string)
    (store_coordinate : Coordinate) (inventory : gmap string pyval)
    (farm_data : pyval) (resources : gmap string ResourceGroup) (purchase : bool) :
  fetch_farm_data farm_id api_key = Ok farm_data ->
  parse_resource_groups farm_data = Ok resources ->
  should_purchase_axes inventory = Ok purchase ->
  run_bot farm_id api_key profile_dir store_coordinate inventory [] =
  if negb purchase then ([], Ok tt) else
  match tree_coordinates_of resources with
  | [] => ([], Ok tt)
  | tree_coordinates =>
      ([SyncPlaywrightEnter;
        LaunchPersistentContext profile_dir false 1280 720;
        NewPage;
        Goto "https://sunflower-land.com/play/" "domcontentloaded";
        MouseClick store_coordinate.1 store_coordinate.2]
       ++ harvest_clicks tree_coordinates
       ++ [ContextClose; SyncPlaywrightExit], Ok tt)%list
  end.
Proof.
  intros Hf Hp Hs. unfold run_bot.
  unfold mbind at 1, io_mbind, io_bind, lift. rewrite Hf.
  unfold mbind at 1, io_mbind, io_bind. rewrite Hp.
  unfold mbind at 1, io_mbind, io_bind. rewrite Hs.
  destruct purchase; simpl; [|reflexivity].
  destruct (tree_coordinates_of resources) as [|c cs] eqn:Hc; [reflexivity|].
  destruct store_coordinate as [sx sy].
  unfold mbind, io_mbind, io_bind, emit; simpl.
  rewrite chop_trees_log. simpl. rewrite <- !app_assoc. reflexivity.
Qed.

Lemma run_bot_log_without_purchase (farm_id api_key profile_dir : string)
    (store_coordinate : Coordinate) (inventory : gmap string pyval) :
  should_purchase_axes inventory <> Ok true ->
  (run_bot farm_id api_key profile_dir store_coordinate inventory []).1 = [].
Proof.
  intros Hs. unfold run_bot.
  unfold mbind at 1, io_mbind, io_bind, lift.
  destruct (fetch_farm_data farm_id api_key) as [farm_data|e]; [|reflexivity].
  unfold mbind at 1, io_mbind, io_bind.
  destruct (parse_resource_groups farm_data) as [resources|e]; [|reflexivity].
  unfold mbind at 1, io_mbind, io_bind.
  destruct (should_purchase_axes inventory) as [[|]|e]; try reflexivity.
  congruence.
Qed.

(** C2. In a run where the fetch and the classification succeed, the policy
    returns true and the "trees" group holds n >= 1 coordinates, the browser
    log is: session start, one click at the store coordinate, the 3 * n
    harvest clicks (three per coordinate, in classification order), then the
    close of the context.  Its click sequence is the store click followed by
    the harvest clicks, and [run_bot] returns normally. *)
Theorem run_bot_session (farm_id api_key profile_dir : string)
    (store_coordinate : Coordinate) (inventory : gmap string pyval)
    (farm_data : pyval) (resources : gmap string ResourceGroup) (group : ResourceGroup) :
  fetch_farm_data farm_id api_key = Ok farm_data ->
  parse_resource_groups farm_data = Ok resources ->
  should_purchase_axes inventory = Ok true ->
  resources !! "trees" = Some group ->
  coordinates group <> [] ->
  let log := (run_bot farm_id api_key profile_dir store_coordinate inventory []).1 in
  run_bot farm_id api_key profile_dir store_coordinate inventory [] =
    ([SyncPlaywrightEnter;
      LaunchPersistentContext profile_dir false 1280 720;
      NewPage;
      Goto "https://sunflower-land.com/play/" "domcontentloaded";
      MouseClick store_coordinate.1 store_coordinate.2]
     ++ harvest_clicks (coordinates group)
     ++ [ContextClose; SyncPlaywrightExit], Ok tt)%list /\
  mouse_clicks log =
    MouseClick store_coordinate.1 store_coordinate.2 :: harvest_clicks (coordinates group) /\
  length (harvest_clicks (coordinates group)) = (3 * length (coordinates group))%nat.
Proof.
  intros Hf Hp Hs Hg Hne log. subst log.
  rewrite (run_bot_after_policy _ _ _ _ _ _ _ _ Hf Hp Hs).
  unfold tree_coordinates_of. rewrite Hg.
  cbn [negb default from_option id fst].
  destruct (coordinates group) as [|c cs] eqn:Hc; [congruence|].
  split; [reflexivity|]. split; [|apply harvest_clicks_length].
  cbn [fst]. rewrite !mouse_clicks_app, mouse_clicks_harvest.
  cbn [mouse_clicks List.filter is_click app]. rewrite app_nil_r. reflexivity.
Qed.

(** C3. If the policy returns false, or the classified tree coordinate list
    is empty, the browser log of the run stays empty: no context is created
    and nothing is navigated or clicked.  In both cases [run_bot] returns
    right after the check (the policy check comes first, so in the second
    case it has to return, true or false). *)
Theorem run_bot_early_return (farm_id api_key profile_dir : string)
    (store_coordinate : Coordinate) (inventory : gmap string pyval) :
  (should_purchase_axes inventory = Ok false ->
     (run_bot farm_id api_key profile_dir store_coordinate inventory []).1 = [] /\
     forall farm_data resources,
       fetch_farm_data farm_id api_key = Ok farm_data ->
       parse_resource_groups farm_data = Ok resources ->
       run_bot farm_id api_key profile_dir store_coordinate inventory [] = ([], Ok tt)) /\
  (forall farm_data resources,
     fetch_farm_data farm_id api_key = Ok farm_data ->
     parse_resource_groups farm_data = Ok resources ->
     tree_coordinates_of resources = [] ->
     (run_bot farm_id api_key profile_dir store_coordinate inventory []).1 = [] /\
     (returns (should_purchase_axes inventory) ->
      run_bot farm_id api_key profile_dir store_coordinate inventory [] = ([], Ok tt))).
Proof.
  split.
  - intros Hs. split.
    + apply run_bot_log_without_purchase. rewrite Hs. discriminate.
    + intros farm_data resources Hf Hp.
      rewrite (run_bot_after_policy _ _ _ _ _ _ _ _ Hf Hp Hs). reflexivity.
  - intros farm_data resources Hf Hp Hc.
    assert (forall b, should_purchase_axes inventory = Ok b ->
              run_bot farm_id api_key profile_dir store_coordinate inventory [] = ([], Ok tt))
      as Hrun.
    { intros b Hs. rewrite (run_bot_after_policy _ _ _ _ _ _ _ _ Hf Hp Hs), Hc.
      destruct b; reflexivity. }
    split.
    + destruct (should_purchase_axes inventory) as [b|e] eqn:Hs.
      * rewrite (Hrun b); reflexivity.
      * apply run_bot_log_without_purchase. rewrite Hs. discriminate.
    + intros [b Hs]. apply (Hrun b Hs).
Qed.

(** ** Further properties of the module *)

(** *** Coordinate extraction *)

(** X1. A nested "coordinates" mapping is the only source read: the result is
    the read of that mapping, and the entry's own "x" and "y" play no part,
    not even for an axis the nested mapping lacks. *)
Theorem extract_coordinate_nested_only (d m : gmap string pyval) :
  d !! "coordinates" = Some (VDict m) ->
  _extract_coordinate (VDict d) = read_xy m /\
  forall x y : pyval,
    _extract_coordinate (VDict (<[ "x" := x ]> (<[ "y" := y ]> d)))
    = _extract_coordinate (VDict d).
Proof.
  intros Hc. split; [|intros x y]; rewrite !extract_coordinate_dict;
    unfold coordinate_source.
  - rewrite Hc. reflexivity.
  - rewrite !lookup_insert_ne by discriminate. rewrite Hc. reflexivity.
Qed.

Lemma int_to_float_error (z : Z) (e : exn) :
  int_to_float z = Raise e -> e = OverflowError.
Proof.
  unfold int_to_float.
  destruct (binary_normalize 53 1024 z 0 false); intros H; congruence.
Qed.

Lemma py_float_error (v : pyval) (e : exn) :
  py_float v = Raise e -> conversion_error e.
Proof.
  unfold conversion_error.
  destruct v as [|b|z|f|s|l|d]; simpl; intros H; try (left; congruence).
  - right; right. eapply int_to_float_error. exact H.
  - right; right. eapply int_to_float_error. exact H.
  - destruct (str_to_float s); [discriminate|]. right; left. congruence.
Qed.

Lemma read_xy_error (d : gmap string pyval) (e : exn) :
  read_xy d = Raise e ->
  py_float (default (VInt 0) (d !! "x")) = Raise e \/
  (returns (py_float (default (VInt 0) (d !! "x"))) /\
   py_float (default (VInt 0) (d !! "y")) = Raise e).
Proof.
  unfold read_xy.
  destruct (py_float (default (VInt 0) (d !! "x"))) as [fx|ex]; simpl.
  - destruct (py_float (default (VInt 0) (d !! "y"))) as [fy|ey]; simpl.
    + discriminate.
    + intros H. right. split; [apply returns_Ok|congruence].
  - intros H. left. congruence.
Qed.

Lemma extract_coordinate_error (entry : pyval) (e : exn) :
  _extract_coordinate entry = Raise e -> conversion_error e.
Proof.
  destruct (isinstance_Mapping entry) eqn:Hm.
  - destruct entry; try discriminate. rewrite extract_coordinate_dict.
    intros H. apply read_xy_error in H as [H|[_ H]]; eapply py_float_error; exact H.
  - rewrite extract_coordinate_not_dict by assumption. intros H. left. congruence.
Qed.

Lemma for_in_classify_error (entries : list pyval) :
  forall (grouped : gmap string ResourceGroup) (e : exn),
    for_in classify_tree grouped entries = Raise e ->
    exists entry, In entry entries /\ _extract_coordinate entry = Raise e.
Proof.
  induction entries as [|entry entries IH]; intros grouped e; simpl.
  - discriminate.
  - destruct (_extract_coordinate entry) as [c|e'] eqn:Hc.
    + rewrite (classify_tree_Ok _ _ _ Hc). simpl. intros H.
      destruct (IH _ _ H) as (entry' & Hin & He). exists entry'. auto.
    + rewrite (classify_tree_Raise _ _ _ Hc). simpl. intros H.
      exists entry. split; [left; reflexivity|congruence].
Qed.

(** X5. The subscript [tree_like["coordinates"]] is guarded by the membership
    test, so no [KeyError] escapes: extraction and classification raise
    nothing but [TypeError], [ValueError] (a str the parser rejects) and
    [OverflowError] (an int beyond the float range). *)
Theorem classification_errors :
  (forall (entry : pyval) (e : exn),
     _extract_coordinate entry = Raise e -> conversion_error e) /\
  (forall (farm_data : pyval) (e : exn),
     parse_resource_groups farm_data = Raise e -> conversion_error e).
Proof.
  split; [apply extract_coordinate_error|].
  intros farm_data e. destruct (isinstance_Mapping farm_data) eqn:Hm.
  - destruct farm_data; try discriminate. rewrite parse_mapping.
    destruct (py_iter (default (VList []) (d !! "trees"))) as [items|e'] eqn:Hi; simpl.
    + intros H. apply for_in_classify_error in H as (entry & _ & H).
      eapply extract_coordinate_error. exact H.
    + intros H. left.
      destruct (default (VList []) (d !! "trees")); simpl in Hi; congruence.
  - rewrite parse_not_mapping by assumption. discriminate.
Qed.

(** X3. Integer coordinates of at most 53 bits are extracted exactly: when the
    values read for "x" and "y" are ints [a] and [b] below 2^53 in
    magnitude (a missing one being 0), extraction returns floats of
    exactly the values [a] and [b]. *)
Theorem extract_coordinate_exact (d : gmap string pyval) (a b : Z) :
  default (VInt 0) (coordinate_source d !! "x") = VInt a ->
  default (VInt 0) (coordinate_source d !! "y") = VInt b ->
  Z.abs a < 2 ^ 53 -> Z.abs b < 2 ^ 53 ->
  exists fx fy : float,
    _extract_coordinate (VDict d) = Ok (fx, fy) /\
    float_is_int fx a /\ float_is_int fy b.
Proof.
  intros Hx Hy Ha Hb. rewrite extract_coordinate_dict. unfold read_xy.
  rewrite Hx, Hy. simpl.
  assert (forall z, Z.abs z < 2 ^ 53 ->
            exists f, int_to_float z = Ok f /\ float_is_int f z) as Hconv.
  { intros z Hz.
    destruct (int_to_float_small z Hz) as [[-> ->]|(m & e & -> & He & Hm)].
    - eexists. split; [reflexivity|]. split; reflexivity.
    - eexists. split; [reflexivity|]. repeat split; assumption. }
  destruct (Hconv a Ha) as (fx & -> & Hfx).
  destruct (Hconv b Hb) as (fy & -> & Hfy).
  exists fx, fy. simpl. auto.
Qed.

(** *** The float range *)

Lemma iter_pos_nat {A} (f : A -> A) (p : positive) :
  forall x, SpecFloat.iter_pos f p x = Nat.iter (Pos.to_nat p) f x.
Proof.
  induction p as [p IH|p IH|]; intros x; simpl SpecFloat.iter_pos.
  - rewrite !IH, Pos2Nat.inj_xI. simpl Nat.iter.
    rewrite <- Nat.iter_add, Nat.iter_swap.
    f_equal. f_equal. lia.
  - rewrite !IH, Pos2Nat.inj_xO, <- Nat.iter_add. f_equal. lia.
  - reflexivity.
Qed.

Lemma shr_1_nonneg (m : Z) (r s : bool) :
  0 <= m ->
  shr_1 {| shr_m := m; shr_r := r; shr_s := s |} =
  {| shr_m := m / 2; shr_r := Z.odd m; shr_s := r || s |}.
Proof.
  intros Hm. rewrite <- Z.div2_div.
  destruct m as [|[p|p|]|p]; try lia; reflexivity.
Qed.

Lemma shr_iter (m : Z) (n : nat) :
  0 <= m ->
  let R := Nat.iter (S n) shr_1 {| shr_m := m; shr_r := false; shr_s := false |} in
  shr_m R = m / 2 ^ Z.of_nat (S n) /\ shr_r R = Z.odd (m / 2 ^ Z.of_nat n).
Proof.
  intros Hm. cbv zeta. induction n as [|n IH].
  - unfold Nat.iter. cbn [nat_rect]. rewrite shr_1_nonneg by assumption.
    cbn [shr_m shr_r]. change (2 ^ Z.of_nat 0) with 1. change (2 ^ Z.of_nat 1) with 2.
    rewrite Z.div_1_r. split; reflexivity.
  - remember (S n) as k.
    change (Nat.iter (S k) shr_1 ?x) with (shr_1 (Nat.iter k shr_1 x)).
    destruct (Nat.iter k shr_1 _) as [mk rk sk]. cbn [shr_m shr_r] in IH.
    destruct IH as [-> ->].
    rewrite shr_1_nonneg by (apply Z.div_pos; lia). cbn [shr_m shr_r].
    split; [|reflexivity].
    rewrite (Nat2Z.inj_succ k), Z.pow_succ_r by lia.
    rewrite Z.div_div by lia. f_equal. lia.
Qed.

Lemma digits2_pos_upper (m : positive) : Z.pos m < 2 ^ Z.pos (digits2_pos m).
Proof.
  induction m as [m IH|m IH|]; simpl digits2_pos.
  - rewrite Pos2Z.inj_succ, Z.pow_succ_r by lia. lia.
  - rewrite Pos2Z.inj_succ, Z.pow_succ_r by lia. lia.
  - reflexivity.
Qed.

Lemma digits2_pos_unique (m : positive) (k : Z) :
  2 ^ (k - 1) <= Z.pos m < 2 ^ k -> Z.pos (digits2_pos m) = k.
Proof.
  intros [Hl Hu].
  pose proof (digits2_pos_lower m) as Hl'. pose proof (digits2_pos_upper m) as Hu'.
  assert (0 < k) as Hk.
  { destruct k as [|k|k]; [|lia|].
    - change (2 ^ 0) with 1 in Hu. lia.
    - rewrite Z.pow_neg_r in Hu by lia. lia. }
  destruct (Z.lt_trichotomy (Z.pos (digits2_pos m)) k) as [Hlt|[Heq|Hgt]]; [|assumption|].
  - assert (2 ^ Z.pos (digits2_pos m) <= 2 ^ (k - 1)) by (apply Z.pow_le_mono_r; lia). lia.
  - assert (2 ^ k <= 2 ^ (Z.pos (digits2_pos m) - 1)) by (apply Z.pow_le_mono_r; lia). lia.
Qed.

Lemma round_nearest_even_cases (q : Z) (R : shr_record) :
  let q' := round_nearest_even q (loc_of_shr_record R) in
  (q' = q \/ (q' = q + 1 /\ shr_r R = true)) /\
  (shr_r R = true -> Z.odd q = true -> q' = q + 1).
Proof.
  destruct R as [m [|] [|]]; simpl; rewrite <- ?Z.negb_odd;
    destruct (Z.odd q); simpl; split; auto; intros; congruence.
Qed.

Lemma shr_fexp_large (m : positive) (p : positive) :
  Z.pos (digits2_pos m) = 53 + Z.pos p ->
  let R := (shr_fexp 53 1024 (Z.pos m) 0 loc_Exact).1 in
  (shr_fexp 53 1024 (Z.pos m) 0 loc_Exact).2 = Z.pos p /\
  shr_m R = Z.pos m / 2 ^ Z.pos p /\
  shr_r R = Z.odd (Z.pos m / 2 ^ (Z.pos p - 1)).
Proof.
  intros Hd. cbv zeta.
  unfold shr_fexp, fexp, emin, Zdigits2. rewrite Hd.
  replace (Z.max (53 + Z.pos p + 0 - 53) (3 - 1024 - 53) - 0) with (Z.pos p) by lia.
  unfold shr. cbn [fst snd shr_record_of_loc].
  rewrite iter_pos_nat.
  destruct (Pos2Nat.is_succ p) as [n Hn]. rewrite Hn.
  destruct (shr_iter (Z.pos m) n) as [Hm Hr]; [lia|].
  rewrite Hm, Hr.
  assert (Z.of_nat (S n) = Z.pos p) as Hp by lia.
  rewrite Hp. replace (Z.of_nat n) with (Z.pos p - 1) by lia.
  repeat split; lia.
Qed.

Lemma quotient_bounds (m p : positive) :
  Z.pos (digits2_pos m) = 53 + Z.pos p ->
  2 ^ 52 <= Z.pos m / 2 ^ Z.pos p < 2 ^ 53.
Proof.
  intros Hd.
  pose proof (digits2_pos_lower m) as Hl. pose proof (digits2_pos_upper m) as Hu.
  rewrite Hd in Hl, Hu.
  replace (53 + Z.pos p - 1) with (52 + Z.pos p) in Hl by lia.
  rewrite Z.pow_add_r in Hl, Hu by lia.
  assert (0 < 2 ^ Z.pos p) by (apply Z.pow_pos_nonneg; lia).
  split.
  - apply Z.div_le_lower_bound; lia.
  - apply Z.div_lt_upper_bound; lia.
Qed.

Lemma binary_round_large (s : bool) (m p : positive) :
  Z.pos (digits2_pos m) = 53 + Z.pos p ->
  let q := Z.pos m / 2 ^ Z.pos p in
  let r := Z.odd (Z.pos m / 2 ^ (Z.pos p - 1)) in
  exists q' : positive,
    (Z.pos q' = q \/ (Z.pos q' = q + 1 /\ r = true)) /\
    (r = true -> Z.odd q = true -> Z.pos q' = q + 1) /\
    binary_round 53 1024 s m 0 =
      if Z.pos q' <? 2 ^ 53
      then (if Z.pos p <=? 971 then S754_finite s q' (Z.pos p) else S754_infinity s)
      else (if Z.pos p + 1 <=? 971
            then S754_finite s 4503599627370496 (Z.pos p + 1)
            else S754_infinity s).
Proof.
  intros Hd q r.
  pose proof (quotient_bounds m p Hd) as Hq. fold q in Hq.
  destruct (shr_fexp_large m p Hd) as (He & Hm & Hr). fold q in Hm. fold r in Hr.
  destruct (shr_fexp 53 1024 (Z.pos m) 0 loc_Exact) as [R e'] eqn:Hshr.
  cbn [fst snd] in He, Hm, Hr. subst e'.
  destruct (round_nearest_even_cases q R) as [Hcases Hup].
  rewrite Hr in Hcases, Hup.
  destruct (round_nearest_even q (loc_of_shr_record R)) as [|q'|q'] eqn:Hround;
    [lia| |lia].
  exists q'. split; [exact Hcases|]. split; [exact Hup|].
  unfold binary_round, shl_align, fexp, emin. rewrite Hd.
  replace (Z.max (53 + Z.pos p + 0 - 53) (3 - 1024 - 53) - 0) with (Z.pos p) by lia.
  unfold binary_round_aux. rewrite Hshr, Hm, Hround.
  destruct (Z.ltb_spec (Z.pos q') (2 ^ 53)) as [Hlt|Hge].
  - assert (Z.pos (digits2_pos q') = 53) as Hd' by (apply digits2_pos_unique; lia).
    assert (shr_fexp 53 1024 (Z.pos q') (Z.pos p) loc_Exact
            = ({| shr_m := Z.pos q'; shr_r := false; shr_s := false |}, Z.pos p)) as ->.
    { unfold shr_fexp, fexp, emin, Zdigits2. rewrite Hd'.
      replace (Z.max (53 + Z.pos p - 53) (3 - 1024 - 53) - Z.pos p) with 0 by lia.
      reflexivity. }
    cbn [shr_m]. reflexivity.
  - assert (q' = 9007199254740992%positive) as -> by lia.
    assert (shr_fexp 53 1024 (Z.pos 9007199254740992) (Z.pos p) loc_Exact
            = ({| shr_m := Z.pos 4503599627370496; shr_r := false; shr_s := false |},
               Z.pos p + 1)) as ->.
    { unfold shr_fexp, fexp, emin.
      change (Zdigits2 (Z.pos 9007199254740992)) with 54.
      replace (Z.max (54 + Z.pos p - 53) (3 - 1024 - 53) - Z.pos p) with 1 by lia.
      reflexivity. }
    cbn [shr_m]. reflexivity.
Qed.

Lemma half_quotient (m : positive) :
  let a := Z.pos m / 2 ^ 970 in
  Z.pos m / 2 ^ 971 = a / 2 /\
  2 ^ 970 * a <= Z.pos m < 2 ^ 970 * (a + 1) /\
  a = 2 * (a / 2) + (if Z.odd a then 1 else 0).
Proof.
  intros a. split; [|split].
  - unfold a. rewrite Z.div_div by lia. reflexivity.
  - unfold a. split.
    + apply Z.mul_div_le. lia.
    + replace (Z.pos m / 2 ^ 970 + 1) with (Z.succ (Z.pos m / 2 ^ 970)) by lia.
      apply Z.mul_succ_div_gt. lia.
  - rewrite <- Zmod_odd. apply Z.div_mod. lia.
Qed.

Lemma binary_round_overflow (s : bool) (m : positive) :
  (Z.pos m < 2 ^ 1024 - 2 ^ 970 ->
     exists m' e', binary_round 53 1024 s m 0 = S754_finite s m' e') /\
  (2 ^ 1024 - 2 ^ 970 <= Z.pos m ->
     binary_round 53 1024 s m 0 = S754_infinity s).
Proof.
  destruct (Z.le_gt_cases (Z.pos (digits2_pos m)) 53) as [Hsmall|Hlarge].
  - pose proof (digits2_pos_upper m) as Hu.
    assert (2 ^ Z.pos (digits2_pos m) <= 2 ^ 53) by (apply Z.pow_le_mono_r; lia).
    split; [intros _|lia].
    destruct (binary_round_small s m) as (m' & e' & H' & _); [lia|]. eauto.
  - destruct (Z.pos (digits2_pos m) - 53) as [|p|p] eqn:Hp; try lia.
    assert (Z.pos (digits2_pos m) = 53 + Z.pos p) as Hd by lia.
    pose proof (digits2_pos_lower m) as Hl. pose proof (digits2_pos_upper m) as Hu.
    rewrite Hd in Hl, Hu.
    destruct (binary_round_large s m p Hd) as (q' & Hcases & Hup & ->).
    pose proof (quotient_bounds m p Hd) as Hq.
    destruct (Z.lt_trichotomy (Z.pos p) 971) as [Hlt|[Heq|Hgt]].
    + (* at most 1023 bits: in range whichever way it rounds *)
      assert (2 ^ (53 + Z.pos p) <= 2 ^ 1023) by (apply Z.pow_le_mono_r; lia).
      split; [intros _|lia].
      destruct (Z.pos q' <? 2 ^ 53).
      * destruct (Z.leb_spec (Z.pos p) 971); [eauto|lia].
      * destruct (Z.leb_spec (Z.pos p + 1) 971); [eauto|lia].
    + (* 1024 bits: overflow exactly when the rounding carries *)
      rewrite Heq in *. clear Hl. change (53 + 971) with 1024 in Hu.
      destruct (half_quotient m) as (Hhalf & Ha & Hodd).
      rewrite Hhalf in Hcases, Hup, Hq.
      change (971 - 1) with 970 in Hcases, Hup.
      set (a := Z.pos m / 2 ^ 970) in *. clearbody a.
      split; intros Hm.
      * destruct (Z.ltb_spec (Z.pos q') (2 ^ 53)) as [Hq'|Hq'].
        -- simpl. eauto.
        -- exfalso. destruct Hcases as [Hc|[Hc Hr]]; [lia|].
           rewrite Hr in Hodd. lia.
      * destruct (Z.ltb_spec (Z.pos q') (2 ^ 53)) as [Hq'|Hq']; [|reflexivity].
        exfalso.
        assert (a = 2 ^ 54 - 1) as Ha' by lia.
        assert (Z.odd a = true) as Hoa by (rewrite Ha'; reflexivity).
        assert (Z.odd (a / 2) = true) as Hoq by (rewrite Ha'; reflexivity).
        specialize (Hup Hoa Hoq). rewrite Hoa in Hodd. lia.
    + (* more than 1024 bits: always overflow *)
      assert (2 ^ 1024 <= 2 ^ (53 + Z.pos p - 1)) by (apply Z.pow_le_mono_r; lia).
      split; [lia|intros _].
      destruct (Z.pos q' <? 2 ^ 53).
      * destruct (Z.leb_spec (Z.pos p) 971); [lia|reflexivity].
      * destruct (Z.leb_spec (Z.pos p + 1) 971); [lia|reflexivity].
Qed.

(** [float] of an int: in range it returns a finite float, from
    2^1024 - 2^970 on (the midpoint above the largest float, which rounds
    up) it raises [OverflowError]. *)
Lemma int_to_float_range (z : Z) :
  (Z.abs z < 2 ^ 1024 - 2 ^ 970 ->
     exists f, int_to_float z = Ok f /\ float_finite f) /\
  (2 ^ 1024 - 2 ^ 970 <= Z.abs z -> int_to_float z = Raise OverflowError).
Proof.
  unfold int_to_float, binary_normalize. destruct z as [|m|m].
  - split; [intros _; eexists; split; [reflexivity|exact I]|].
    intros H. exfalso. simpl in H. lia.
  - destruct (binary_round_overflow false m) as [Hfin Hinf]. split; intros H.
    + destruct (Hfin H) as (m' & e' & ->). eexists. split; [reflexivity|exact I].
    + rewrite (Hinf H). reflexivity.
  - destruct (binary_round_overflow true m) as [Hfin Hinf]. split; intros H.
    + destruct (Hfin H) as (m' & e' & ->). eexists. split; [reflexivity|exact I].
    + rewrite (Hinf H). reflexivity.
Qed.

(** X4. Integer coordinates and the float range: when the values read for "x"
    and "y" are ints, extraction returns (finite floats) if both are below
    2^1024 - 2^970 in magnitude, and raises [OverflowError] if either is
    not. *)
Theorem extract_coordinate_int_range (d : gmap string pyval) (a b : Z) :
  default (VInt 0) (coordinate_source d !! "x") = VInt a ->
  default (VInt 0) (coordinate_source d !! "y") = VInt b ->
  (Z.abs a < 2 ^ 1024 - 2 ^ 970 -> Z.abs b < 2 ^ 1024 - 2 ^ 970 ->
     exists fx fy : float,
       _extract_coordinate (VDict d) = Ok (fx, fy) /\
       float_finite fx /\ float_finite fy) /\
  (2 ^ 1024 - 2 ^ 970 <= Z.abs a \/ 2 ^ 1024 - 2 ^ 970 <= Z.abs b ->
     _extract_coordinate (VDict d) = Raise OverflowError).
Proof.
  intros Hx Hy. rewrite extract_coordinate_dict. unfold read_xy.
  rewrite Hx, Hy. simpl.
  destruct (int_to_float_range a) as [Ha Ha'].
  destruct (int_to_float_range b) as [Hb Hb'].
  split.
  - intros Hra Hrb.
    destruct (Ha Hra) as (fx & -> & Hfx). destruct (Hb Hrb) as (fy & -> & Hfy).
    exists fx, fy. simpl. auto.
  - intros [Hoa|Hob].
    + rewrite (Ha' Hoa). reflexivity.
    + rewrite (Hb' Hob).
      destruct (Z.lt_ge_cases (Z.abs a) (2 ^ 1024 - 2 ^ 970)) as [Hra|Hoa].
      * destruct (Ha Hra) as (fx & -> & _). reflexivity.
      * rewrite (Ha' Hoa). reflexivity.
Qed.

Lemma py_float_convertible (v : pyval) :
  returns (py_float v) <-> convertible v.
Proof.
  rewrite py_float_returns. destruct v as [|b|z|f|s|l|d]; simpl; try reflexivity.
  destruct (int_to_float_range z) as [Hin Hout]. split.
  - intros Hr. destruct (Z.lt_ge_cases (Z.abs z) (2 ^ 1024 - 2 ^ 970)) as [|Hge];
      [assumption|].
    rewrite (Hout Hge) in Hr. destruct (returns_Raise _ Hr).
  - intros Hlt. destruct (Hin Hlt) as (f & -> & _). apply returns_Ok.
Qed.

(** X2. Extraction returns exactly on a mapping whose two values read (from the
    nested "coordinates" mapping when there is one, else from the entry,
    a missing one being 0) are convertible; on every other entry it
    raises. *)
Theorem extract_coordinate_returns_iff (entry : pyval) :
  returns (_extract_coordinate entry) <->
  exists d, entry = VDict d /\
    convertible (default (VInt 0) (coordinate_source d !! "x")) /\
    convertible (default (VInt 0) (coordinate_source d !! "y")).
Proof.
  rewrite extract_coordinate_returns. unfold accepted_entry.
  split; intros (d & -> & Hx & Hy); exists d; (split; [reflexivity|]);
    split; apply py_float_convertible; assumption.
Qed.

(** *** Resource classification *)

Lemma for_in_classify_app (good : list pyval) :
  forall (coords : list Coordinate) (rest : list pyval)
         (grouped : gmap string ResourceGroup),
    Forall2 (fun entry c => _extract_coordinate entry = Ok c) good coords ->
    for_in classify_tree grouped (good ++ rest) =
    for_in classify_tree (foldl append_tree grouped coords) rest.
Proof.
  induction good as [|entry good IH]; intros coords rest grouped Hall;
    inversion Hall as [|? c ? coords' Hc Hgood]; subst; simpl.
  - reflexivity.
  - rewrite (classify_tree_Ok _ _ _ Hc). simpl. apply IH. assumption.
Qed.

Lemma for_in_classify_inv (entries : list pyval) :
  forall grouped grouped' : gmap string ResourceGroup,
    for_in classify_tree grouped entries = Ok grouped' ->
    exists coords : list Coordinate,
      Forall2 (fun entry c => _extract_coordinate entry = Ok c) entries coords /\
      grouped' = foldl append_tree grouped coords.
Proof.
  induction entries as [|entry entries IH]; intros grouped grouped'; simpl.
  - intros H. exists []. split; [constructor|]. simpl. congruence.
  - destruct (_extract_coordinate entry) as [c|e] eqn:Hc.
    + rewrite (classify_tree_Ok _ _ _ Hc). simpl. intros H.
      destruct (IH _ _ H) as (coords & Hall & ->).
      exists (c :: coords). split; [constructor; assumption|reflexivity].
    + rewrite (classify_tree_Raise _ _ _ Hc). simpl. discriminate.
Qed.

(** X6. Classification is all or nothing: the first entry whose extraction
    raises ends it with that exception, the coordinates gathered before it
    are dropped, and the entries after it are not looked at. *)
Theorem parse_first_error (d : gmap string pyval)
    (good rest : list pyval) (bad : pyval) (coords : list Coordinate) (e : exn) :
  d !! "trees" = Some (VList (good ++ bad :: rest)) ->
  Forall2 (fun entry c => _extract_coordinate entry = Ok c) good coords ->
  _extract_coordinate bad = Raise e ->
  parse_resource_groups (VDict d) = Raise e.
Proof.
  intros Hd Hgood Hbad. rewrite parse_mapping, Hd. simpl.
  rewrite (for_in_classify_app _ _ _ _ Hgood). simpl.
  rewrite (classify_tree_Raise _ _ _ Hbad). reflexivity.
Qed.

(** X7. Whatever the input, a returned classification is either empty or holds
    the one key "trees", whose group is named "trees" and has at least one
    coordinate: a group is never present and empty. *)
Theorem parse_result_shape (farm_data : pyval) (grouped : gmap string ResourceGroup) :
  parse_resource_groups farm_data = Ok grouped ->
  grouped = grouped_trees (tree_coordinates_of grouped) /\
  (forall key group,
     grouped !! key = Some group ->
     key = "trees" /\ resource_type group = "trees" /\ coordinates group <> []) /\
  (tree_coordinates_of grouped = [] <-> grouped = ∅).
Proof.
  intros Hp.
  assert (exists coords, grouped = grouped_trees coords) as [coords ->].
  { destruct (isinstance_Mapping farm_data) eqn:Hm.
    - destruct farm_data; try discriminate. rewrite parse_mapping in Hp.
      destruct (py_iter (default (VList []) (d !! "trees"))) as [items|e]; simpl in Hp;
        [|discriminate].
      apply for_in_classify_inv in Hp as (coords & _ & ->).
      exists coords. apply foldl_append_tree_empty.
    - rewrite parse_not_mapping in Hp by assumption. exists []. simpl. congruence. }
  destruct coords as [|c cs]; simpl.
  - split; [reflexivity|]. split; [|split; reflexivity].
    intros key group H. rewrite lookup_empty in H. discriminate.
  - unfold tree_coordinates_of. rewrite lookup_singleton_eq. simpl.
    split; [reflexivity|]. split.
    + intros key group H. apply lookup_singleton_Some in H as [<- <-].
      simpl. repeat split. discriminate.
    + split; [discriminate|]. intros H.
      apply (f_equal (fun g : gmap string ResourceGroup => g !! "trees")) in H.
      rewrite lookup_singleton_eq, lookup_empty in H. discriminate.
Qed.


(** *** Purchase policy *)

Lemma py_gt_int_number (v : pyval) (k : Z) :
  (is_number v = true -> returns (py_gt_int v k)) /\
  (is_number v = false -> py_gt_int v k = Raise TypeError).
Proof.
  destruct v; simpl; split; intros H; try discriminate; try reflexivity;
    apply returns_Ok.
Qed.

(** X9. The policy raises on a non-number only where it compares it: a
    non-number at "axes" always ends in [TypeError]; a number above 10 at
    "axes" gives true without "gold" being compared, whatever it holds; and
    a non-number at "gold" ends in [TypeError] only when "axes" is a number
    not above 10. *)
Theorem should_purchase_axes_errors (inventory : gmap string pyval) :
  let axes := default (VInt 0) (inventory !! "axes") in
  let gold := default (VInt 0) (inventory !! "gold") in
  (is_number axes = false -> should_purchase_axes inventory = Raise TypeError) /\
  (py_gt_int axes 10 = Ok true -> should_purchase_axes inventory = Ok true) /\
  (py_gt_int axes 10 = Ok false -> is_number gold = false ->
     should_purchase_axes inventory = Raise TypeError) /\
  (is_number axes = true -> is_number gold = true ->
     returns (should_purchase_axes inventory)).
Proof.
  intros axes gold. unfold should_purchase_axes. fold axes. fold gold.
  repeat split.
  - intros H. rewrite (proj2 (py_gt_int_number axes 10) H). reflexivity.
  - intros ->. reflexivity.
  - intros -> H. simpl. apply (proj2 (py_gt_int_number gold 500) H).
  - intros Ha Hg.
    destruct (proj1 (py_gt_int_number axes 10) Ha) as [[|] ->]; simpl.
    + apply returns_Ok.
    + apply (proj1 (py_gt_int_number gold 500) Hg).
Qed.

(** *** Session driver and orchestrator *)

(** X10. Harvesting a concatenation is harvesting its parts one after the other
    on the same log, and harvesting nothing leaves the log as it is. *)
Theorem chop_trees_app (page : Page) (first second : list Coordinate)
    (log : list event) :
  chop_trees page (first ++ second) log
    = chop_trees page second (chop_trees page first log).1 /\
  chop_trees page [] log = (log, Ok tt).
Proof.
  rewrite !chop_trees_log. cbn [fst]. split.
  - unfold harvest_clicks. rewrite flat_map_app, app_assoc. reflexivity.
  - simpl. rewrite app_nil_r. reflexivity.
Qed.

Lemma run_bot_fetch_error (farm_id api_key profile_dir : string)
    (store_coordinate : Coordinate) (inventory : gmap string pyval) (e : exn) :
  fetch_farm_data farm_id api_key = Raise e ->
  run_bot farm_id api_key profile_dir store_coordinate inventory [] = ([], Raise e).
Proof.
  intros Hf. unfold run_bot.
  unfold mbind at 1, io_mbind, io_bind, lift. rewrite Hf. reflexivity.
Qed.

Lemma run_bot_parse_error (farm_id api_key profile_dir : string)
    (store_coordinate : Coordinate) (inventory : gmap string pyval)
    (farm_data : pyval) (e : exn) :
  fetch_farm_data farm_id api_key = Ok farm_data ->
  parse_resource_groups farm_data = Raise e ->
  run_bot farm_id api_key profile_dir store_coordinate inventory [] = ([], Raise e).
Proof.
  intros Hf Hp. unfold run_bot.
  unfold mbind at 1, io_mbind, io_bind, lift. rewrite Hf.
  unfold mbind at 1, io_mbind, io_bind. rewrite Hp. reflexivity.
Qed.

Lemma run_bot_policy_error (farm_id api_key profile_dir : string)
    (store_coordinate : Coordinate) (inventory : gmap string pyval)
    (farm_data : pyval) (resources : gmap string ResourceGroup) (e : exn) :
  fetch_farm_data farm_id api_key = Ok farm_data ->
  parse_resource_groups farm_data = Ok resources ->
  should_purchase_axes inventory = Raise e ->
  run_bot farm_id api_key profile_dir store_coordinate inventory [] = ([], Raise e).
Proof.
  intros Hf Hp Hs. unfold run_bot.
  unfold mbind at 1, io_mbind, io_bind, lift. rewrite Hf.
  unfold mbind at 1, io_mbind, io_bind. rewrite Hp.
  unfold mbind at 1, io_mbind, io_bind. rewrite Hs. reflexivity.
Qed.

Lemma run_bot_purchase (farm_id api_key profile_dir : string)
    (store_coordinate : Coordinate) (inventory : gmap string pyval)
    (farm_data : pyval) (resources : gmap string ResourceGroup) :
  fetch_farm_data farm_id api_key = Ok farm_data ->
  parse_resource_groups farm_data = Ok resources ->
  should_purchase_axes inventory = Ok true ->
  tree_coordinates_of resources <> [] ->
  run_bot farm_id api_key profile_dir store_coordinate inventory [] =
  (session_log profile_dir store_coordinate (tree_coordinates_of resources), Ok tt).
Proof.
  intros Hf Hp Hs Hne.
  rewrite (run_bot_after_policy _ _ _ _ _ _ _ _ Hf Hp Hs). cbn [negb].
  destruct (tree_coordinates_of resources); [congruence|reflexivity].
Qed.

(** X11. Errors surface in program order and before any browser call: a failed
    fetch, then a failed classification (even when the policy would have
    said no or raised), then a failed policy check each end the run with
    that exception and an empty browser log. *)
Theorem run_bot_errors (farm_id api_key profile_dir : string)
    (store_coordinate : Coordinate) (inventory : gmap string pyval) (e : exn) :
  let run := run_bot farm_id api_key profile_dir store_coordinate inventory [] in
  (fetch_farm_data farm_id api_key = Raise e -> run = ([], Raise e)) /\
  (forall farm_data,
     fetch_farm_data farm_id api_key = Ok farm_data ->
     parse_resource_groups farm_data = Raise e -> run = ([], Raise e)) /\
  (forall farm_data resources,
     fetch_farm_data farm_id api_key = Ok farm_data ->
     parse_resource_groups farm_data = Ok resources ->
     should_purchase_axes inventory = Raise e -> run = ([], Raise e)).
Proof.
  intros run. subst run. split; [|split].
  - apply run_bot_fetch_error.
  - intros farm_data. apply run_bot_parse_error.
  - intros farm_data resources. apply run_bot_policy_error.
Qed.


(** X13. The browser is launched exactly when the fetch and the classification
    succeed, the policy returns true and there is a tree coordinate. *)
Theorem run_bot_launch_iff (farm_id api_key profile_dir : string)
    (store_coordinate : Coordinate) (inventory : gmap string pyval) :
  (run_bot farm_id api_key profile_dir store_coordinate inventory []).1 <> [] <->
  exists farm_data resources,
    fetch_farm_data farm_id api_key = Ok farm_data /\
    parse_resource_groups farm_data = Ok resources /\
    should_purchase_axes inventory = Ok true /\
    tree_coordinates_of resources <> [].
Proof.
  split.
  - intros Hlog.
    destruct (fetch_farm_data farm_id api_key) as [farm_data|e] eqn:Hf;
      [|rewrite (run_bot_fetch_error _ _ _ _ _ _ Hf) in Hlog; destruct Hlog; reflexivity].
    destruct (parse_resource_groups farm_data) as [resources|e] eqn:Hp;
      [|rewrite (run_bot_parse_error _ _ _ _ _ _ _ Hf Hp) in Hlog;
        destruct Hlog; reflexivity].
    destruct (should_purchase_axes inventory) as [purchase|e] eqn:Hs;
      [|rewrite (run_bot_policy_error _ _ _ _ _ _ _ _ Hf Hp Hs) in Hlog;
        destruct Hlog; reflexivity].
    rewrite (run_bot_after_policy _ _ _ _ _ _ _ _ Hf Hp Hs) in Hlog.
    destruct purchase; cbn [negb] in Hlog; [|destruct Hlog; reflexivity].
    exists farm_data, resources. repeat split; try reflexivity; try assumption.
    intros Hc. rewrite Hc in Hlog. destruct Hlog. reflexivity.
  - intros (farm_data & resources & Hf & Hp & Hs & Hne).
    rewrite (run_bot_purchase _ _ _ _ _ _ _ Hf Hp Hs Hne). discriminate.
Qed.

(** X14. From the raw farm data to the clicks: when the service answers with a
    mapping whose "trees" list is non-empty, every entry yields a
    coordinate and the policy returns true, the run is one complete session
    whose harvest clicks those coordinates, in the order of the entries. *)
Theorem run_bot_end_to_end (farm_id api_key profile_dir : string)
    (store_coordinate : Coordinate) (inventory : gmap string pyval)
    (d : gmap string pyval) (entries : list pyval) (coords : list Coordinate) :
  fetch_farm_data farm_id api_key = Ok (VDict d) ->
  d !! "trees" = Some (VList entries) ->
  entries <> [] ->
  Forall2 (fun entry c => _extract_coordinate entry = Ok c) entries coords ->
  should_purchase_axes inventory = Ok true ->
  run_bot farm_id api_key profile_dir store_coordinate inventory [] =
  (session_log profile_dir store_coordinate coords, Ok tt).
Proof.
  intros Hf Hd Hne Hall Hs.
  assert (parse_resource_groups (VDict d) = Ok (grouped_trees coords)) as Hp.
  { rewrite parse_mapping, Hd. simpl.
    rewrite (for_in_classify _ _ _ Hall), foldl_append_tree_empty. reflexivity. }
  destruct Hall as [|entry c entries coords Hc Hall]; [congruence|].
  assert (tree_coordinates_of (grouped_trees (c :: coords)) = c :: coords) as Ht.
  { unfold tree_coordinates_of. simpl. rewrite lookup_singleton_eq. reflexivity. }
  rewrite (run_bot_purchase _ _ _ _ _ _ _ Hf Hp Hs) by (rewrite Ht; discriminate).
  rewrite Ht. reflexivity.
Qed.

End Bot.


(** ** Worked examples *)

Lemma should_purchase_axes_iff_witness :
  count_at {[ "axes" := VInt 12 ]} "axes" 12 /\
  count_at {[ "axes" := VInt 12 ]} "gold" 0 /\
  exists b : bool,
    should_purchase_axes {[ "axes" := VInt 12 ]} = Ok b /\
    (b = true <-> 10 < 12 \/ 500 < 0).
Proof.
  assert (count_at {[ "axes" := VInt 12 ]} "axes" 12) as Ha by (left; reflexivity).
  assert (count_at {[ "axes" := VInt 12 ]} "gold" 0) as Hg
    by (right; split; reflexivity).
  split; [exact Ha|]. split; [exact Hg|].
  exact (proj1 should_purchase_axes_iff _ _ _ Ha Hg).
Defined.

Lemma extract_coordinate_default_witness :
  (forall m, (∅ : gmap string pyval) !! "coordinates" <> Some (VDict m)) /\
  _extract_coordinate no_literal (VDict ∅) = Ok (float_0, float_0).
Proof.
  assert (forall m, (∅ : gmap string pyval) !! "coordinates" <> Some (VDict m)) as Hno
    by (intros m; discriminate).
  split; [exact Hno|].
  apply (proj1 (extract_coordinate_default no_literal ∅ Hno)); reflexivity.
Defined.

Lemma extract_coordinate_ignores_non_mapping_witness :
  ({[ "coordinates" := VInt 5; "x" := VInt 3 ]} : gmap string pyval) !! "coordinates"
    = Some (VInt 5) /\
  isinstance_Mapping (VInt 5) = false /\
  _extract_coordinate no_literal (VDict {[ "coordinates" := VInt 5; "x" := VInt 3 ]})
    = read_xy no_literal {[ "coordinates" := VInt 5; "x" := VInt 3 ]}.
Proof.
  split; [reflexivity|]. split; [reflexivity|].
  refine (proj1 (extract_coordinate_ignores_non_mapping no_literal
                   {[ "coordinates" := VInt 5; "x" := VInt 3 ]} (VInt 5) _ _));
    reflexivity.
Defined.

Lemma parse_without_trees_witness :
  (isinstance_Mapping (VList []) = false \/
    (exists d, VList [] = VDict d /\ d !! "trees" = None)) /\
  parse_resource_groups no_literal (VList []) = Ok ∅.
Proof.
  split; [left; reflexivity|].
  apply (parse_without_trees no_literal (VList [])). left. reflexivity.
Defined.

Lemma two_trees_extracted :
  Forall2 (fun entry c => _extract_coordinate no_literal entry = Ok c)
    [ VDict {[ "x" := VInt 3; "y" := VInt 4 ]};
      VDict {[ "coordinates" := VDict {[ "x" := VInt 3; "y" := VInt 4 ]} ]} ]
    [ (float_3, float_4); (float_3, float_4) ].
Proof. repeat constructor. Qed.

Lemma parse_trees_in_order_witness :
  exists grouped : gmap string ResourceGroup,
    parse_resource_groups no_literal two_trees = Ok grouped /\
    dom grouped ⊆ {[ "trees" ]} /\
    length [ (float_3, float_4); (float_3, float_4) ] = 2%nat /\
    (grouped !! "trees" =
       Some (Build_ResourceGroup "trees" [ (float_3, float_4); (float_3, float_4) ])).
Proof.
  assert (({[ "trees" := VList
             [ VDict {[ "x" := VInt 3; "y" := VInt 4 ]};
               VDict {[ "coordinates" := VDict {[ "x" := VInt 3; "y" := VInt 4 ]} ]} ] ]}
           : gmap string pyval) !! "trees" = Some (VList
             [ VDict {[ "x" := VInt 3; "y" := VInt 4 ]};
               VDict {[ "coordinates" := VDict {[ "x" := VInt 3; "y" := VInt 4 ]} ]} ]))
    as Hd by reflexivity.
  destruct (parse_trees_in_order no_literal _ _ _ Hd two_trees_extracted)
    as (grouped & Hp & Hdom & Hlen & Hsome & _).
  exists grouped. repeat split; try assumption.
  apply Hsome. discriminate.
Defined.

Lemma parse_returns_iff_witness :
  accepted_farm_data no_literal two_trees /\
  returns (parse_resource_groups no_literal two_trees).
Proof.
  assert (accepted_farm_data no_literal two_trees) as Hacc.
  { cbn. repeat constructor; eexists; (split; [reflexivity|]);
      split; eexists; reflexivity. }
  split; [exact Hacc|].
  apply (proj2 (parse_returns_iff no_literal two_trees)). exact Hacc.
Defined.

(** C4, refuted as stated: an entry whose "x" is [None] makes the
    classification raise. *)
Lemma parse_raises_on_malformed_axis :
  ~ returns (parse_resource_groups no_literal
               (VDict {[ "trees" := VList [VDict {[ "x" := VNone ]}] ]})).
Proof.
  rewrite parse_raises_on_null_axis. apply returns_Raise.
Qed.

Lemma two_trees_classified :
  parse_resource_groups no_literal two_trees =
  Ok {[ "trees" := Build_ResourceGroup "trees" [ (float_3, float_4); (float_3, float_4) ] ]}.
Proof. reflexivity. Qed.

Lemma run_bot_session_witness :
  should_purchase_axes {[ "axes" := VInt 12; "gold" := VInt 0 ]} = Ok true /\
  run_bot no_literal two_trees_service "farm" "key" "profile" (float_0, float_0)
          {[ "axes" := VInt 12; "gold" := VInt 0 ]} [] =
    ([SyncPlaywrightEnter;
      LaunchPersistentContext "profile" false 1280 720;
      NewPage;
      Goto "https://sunflower-land.com/play/" "domcontentloaded";
      MouseClick float_0 float_0;
      MouseClick float_3 float_4; MouseClick float_3 float_4; MouseClick float_3 float_4;
      MouseClick float_3 float_4; MouseClick float_3 float_4; MouseClick float_3 float_4;
      ContextClose; SyncPlaywrightExit], Ok tt).
Proof.
  split; [reflexivity|].
  refine (proj1 (run_bot_session no_literal two_trees_service
                   "farm" "key" "profile" (float_0, float_0)
                   {[ "axes" := VInt 12; "gold" := VInt 0 ]}
                   two_trees _
                   (Build_ResourceGroup "trees" [ (float_3, float_4); (float_3, float_4) ])
                   eq_refl two_trees_classified _ _ _)).
  - reflexivity.
  - apply lookup_singleton_eq.
  - discriminate.
Defined.

Lemma run_bot_early_return_witness :
  should_purchase_axes {[ "axes" := VInt 2; "gold" := VInt 10 ]} = Ok false /\
  run_bot no_literal two_trees_service "farm" "key" "profile" (float_0, float_0)
          {[ "axes" := VInt 2; "gold" := VInt 10 ]} [] = ([], Ok tt).
Proof.
  split; [reflexivity|].
  refine (proj2 (proj1 (run_bot_early_return no_literal two_trees_service
                          "farm" "key" "profile" (float_0, float_0)
                          {[ "axes" := VInt 2; "gold" := VInt 10 ]}) _)
                two_trees _ eq_refl two_trees_classified).
  reflexivity.
Defined.

Lemma extract_coordinate_nested_only_witness :
  ({[ "coordinates" := VDict {[ "x" := VInt 3 ]}; "y" := VInt 4 ]} : gmap string pyval)
    !! "coordinates" = Some (VDict {[ "x" := VInt 3 ]}) /\
  _extract_coordinate no_literal
    (VDict {[ "coordinates" := VDict {[ "x" := VInt 3 ]}; "y" := VInt 4 ]})
  = read_xy no_literal {[ "x" := VInt 3 ]}.
Proof.
  split; [reflexivity|].
  refine (proj1 (extract_coordinate_nested_only no_literal
                   {[ "coordinates" := VDict {[ "x" := VInt 3 ]}; "y" := VInt 4 ]}
                   {[ "x" := VInt 3 ]} _)).
  reflexivity.
Defined.

Lemma classification_errors_witness :
  _extract_coordinate no_literal (VDict {[ "x" := VStr "left" ]}) = Raise ValueError /\
  conversion_error ValueError.
Proof.
  split; [reflexivity|].
  refine (proj1 (classification_errors no_literal)
                (VDict {[ "x" := VStr "left" ]}) ValueError _).
  reflexivity.
Defined.

Lemma extract_coordinate_exact_witness :
  Z.abs 3 < 2 ^ 53 /\ Z.abs (-4) < 2 ^ 53 /\
  exists fx fy : float,
    _extract_coordinate no_literal (VDict {[ "x" := VInt 3; "y" := VInt (-4) ]})
      = Ok (fx, fy) /\
    float_is_int fx 3 /\ float_is_int fy (-4).
Proof.
  split; [reflexivity|]. split; [reflexivity|].
  refine (extract_coordinate_exact no_literal
            {[ "x" := VInt 3; "y" := VInt (-4) ]} 3 (-4) _ _ _ _); reflexivity.
Defined.

Lemma extract_coordinate_int_range_witness :
  (2 ^ 1024 - 2 ^ 970 <= Z.abs 3 \/ 2 ^ 1024 - 2 ^ 970 <= Z.abs (2 ^ 1024)) /\
  _extract_coordinate no_literal (VDict {[ "x" := VInt 3; "y" := VInt (2 ^ 1024) ]})
    = Raise OverflowError.
Proof.
  assert (2 ^ 1024 - 2 ^ 970 <= Z.abs 3 \/ 2 ^ 1024 - 2 ^ 970 <= Z.abs (2 ^ 1024)) as Hb
    by (right; vm_compute; discriminate).
  split; [exact Hb|].
  refine (proj2 (extract_coordinate_int_range no_literal
                   {[ "x" := VInt 3; "y" := VInt (2 ^ 1024) ]} 3 (2 ^ 1024) _ _) Hb);
    reflexivity.
Defined.

Lemma parse_first_error_witness :
  _extract_coordinate no_literal VNone = Raise TypeError /\
  parse_resource_groups no_literal
    (VDict {[ "trees" := VList [ VDict {[ "x" := VInt 3 ]}; VNone; VDict ∅ ] ]})
  = Raise TypeError.
Proof.
  split; [reflexivity|].
  refine (parse_first_error no_literal
            {[ "trees" := VList [ VDict {[ "x" := VInt 3 ]}; VNone; VDict ∅ ] ]}
            [ VDict {[ "x" := VInt 3 ]} ] [ VDict ∅ ] VNone
            [ (float_3, float_0) ] TypeError _ _ _).
  - reflexivity.
  - repeat constructor.
  - reflexivity.
Defined.

Lemma parse_result_shape_witness :
  parse_resource_groups no_literal two_trees =
    Ok {[ "trees" := Build_ResourceGroup "trees" [ (float_3, float_4); (float_3, float_4) ] ]} /\
  forall key group,
    ({[ "trees" := Build_ResourceGroup "trees" [ (float_3, float_4); (float_3, float_4) ] ]}
       : gmap string ResourceGroup) !! key = Some group ->
    key = "trees" /\ resource_type group = "trees" /\ coordinates group <> [].
Proof.
  split; [exact two_trees_classified|].
  exact (proj1 (proj2 (parse_result_shape no_literal two_trees _ two_trees_classified))).
Defined.


Lemma should_purchase_axes_errors_witness :
  py_gt_int (default (VInt 0)
    (({[ "axes" := VInt 11; "gold" := VStr "plenty" ]} : gmap string pyval) !! "axes")) 10
    = Ok true /\
  should_purchase_axes {[ "axes" := VInt 11; "gold" := VStr "plenty" ]} = Ok true.
Proof.
  split; [reflexivity|].
  refine (proj1 (proj2 (should_purchase_axes_errors
                          {[ "axes" := VInt 11; "gold" := VStr "plenty" ]})) _).
  reflexivity.
Defined.

Lemma run_bot_errors_witness :
  fetch_farm_data failing_service "1" "key" = Raise HTTPError /\
  run_bot no_literal failing_service "1" "key" "profile" (float_0, float_0)
          {[ "axes" := VInt 12 ]} [] = ([], Raise HTTPError).
Proof.
  split; [reflexivity|].
  refine (proj1 (run_bot_errors no_literal failing_service "1" "key" "profile"
                   (float_0, float_0) {[ "axes" := VInt 12 ]} HTTPError) _).
  reflexivity.
Defined.

Lemma run_bot_launch_iff_witness :
  (exists farm_data resources,
     fetch_farm_data two_trees_service "1" "key" = Ok farm_data /\
     parse_resource_groups no_literal farm_data = Ok resources /\
     should_purchase_axes {[ "axes" := VInt 12 ]} = Ok true /\
     tree_coordinates_of resources <> []) /\
  (run_bot no_literal two_trees_service "1" "key" "profile" (float_0, float_0)
           {[ "axes" := VInt 12 ]} []).1 <> [].
Proof.
  assert (exists farm_data resources,
     fetch_farm_data two_trees_service "1" "key" = Ok farm_data /\
     parse_resource_groups no_literal farm_data = Ok resources /\
     should_purchase_axes {[ "axes" := VInt 12 ]} = Ok true /\
     tree_coordinates_of resources <> []) as Hrun.
  { eexists _, _. split; [reflexivity|]. split; [exact two_trees_classified|].
    split; [reflexivity|]. unfold tree_coordinates_of.
    rewrite lookup_singleton_eq. discriminate. }
  split; [exact Hrun|].
  exact (proj2 (run_bot_launch_iff no_literal two_trees_service "1" "key" "profile"
                  (float_0, float_0) {[ "axes" := VInt 12 ]}) Hrun).
Defined.

Lemma run_bot_end_to_end_witness :
  should_purchase_axes {[ "gold" := VInt 501 ]} = Ok true /\
  run_bot no_literal two_trees_service "1" "key" "profile" (float_0, float_0)
          {[ "gold" := VInt 501 ]} [] =
  (session_log "profile" (float_0, float_0) [ (float_3, float_4); (float_3, float_4) ],
   Ok tt).
Proof.
  split; [reflexivity|].
  refine (run_bot_end_to_end no_literal two_trees_service "1" "key" "profile"
            (float_0, float_0) {[ "gold" := VInt 501 ]} _ _ _ _ _ _ two_trees_extracted _).
  - reflexivity.
  - reflexivity.
  - discriminate.
  - reflexivity.
Defined.


Lemma extract_coordinate_returns_iff_witness :
  (exists d, VDict {[ "x" := VBool true; "y" := VInt 4 ]} = VDict d /\
     convertible no_literal (default (VInt 0) (coordinate_source d !! "x")) /\
     convertible no_literal (default (VInt 0) (coordinate_source d !! "y"))) /\
  returns (_extract_coordinate no_literal (VDict {[ "x" := VBool true; "y" := VInt 4 ]})).
Proof.
  assert (exists d, VDict {[ "x" := VBool true; "y" := VInt 4 ]} = VDict d /\
     convertible no_literal (default (VInt 0) (coordinate_source d !! "x")) /\
     convertible no_literal (default (VInt 0) (coordinate_source d !! "y"))) as Hacc.
  { eexists. split; [reflexivity|]. split; [exact I|]. vm_compute. reflexivity. }
  split; [exact Hacc|].
  exact (proj2 (extract_coordinate_returns_iff no_literal _) Hacc).
Defined.
